(** * lightbulb.commands.options: option declaration, schema
      materialisation and value binding

    A shallow embedding of [lightbulb/commands/options.py].  Python objects
    are records, [hikari.UNDEFINED] is the first constructor of
    [UndefinedOr], the dictionaries of resolved entities are [gmap]s keyed
    by snowflake, and the two effects a descriptor read can have (calling
    the client's value resolver, raising) live in a small state-and-error
    monad. *)

From Stdlib Require Import ZArith Bool List.
From Stdlib Require Import SpecFloat.
From stdpp Require Import gmap strings.

Import ListNotations.
Open Scope string_scope.
Open Scope Z_scope.

(** ** The hikari vocabulary used by the module *)

(** [hikari.Snowflake] is an [int]. *)
Definition Snowflake : Type := Z.

(** [hikari.OptionType]. *)
Inductive OptionType :=
| SUB_COMMAND | SUB_COMMAND_GROUP | STRING | INTEGER | BOOLEAN | USER
| CHANNEL | ROLE | MENTIONABLE | FLOAT | ATTACHMENT.

(** The entity classes the module mentions.  [Member] and
    [InteractionMember] derive from [User]; any other class is named. *)
Inductive pyclass :=
| hikari_User
| hikari_Member
| hikari_InteractionMember
| hikari_Message
| other_class (qualname : string).

Definition pyclass_is (a b : pyclass) : bool :=
  match a, b with
  | hikari_User, hikari_User => true
  | hikari_Member, hikari_Member => true
  | hikari_InteractionMember, hikari_InteractionMember => true
  | hikari_Message, hikari_Message => true
  | other_class x, other_class y => String.eqb x y
  | _, _ => false
  end.

(** [issubclass(a, b)] on the classes above. *)
Definition issubclass (a b : pyclass) : bool :=
  match a, b with
  | (hikari_User | hikari_Member | hikari_InteractionMember), hikari_User => true
  | (hikari_Member | hikari_InteractionMember), hikari_Member => true
  | _, _ => pyclass_is a b
  end.

Record User := mkUser {
  user_id : Snowflake;
  username : string;
  is_bot : bool
}.

Record InteractionMember := mkInteractionMember {
  member_user : User;
  guild_id : Snowflake;
  nickname : option string
}.

Record Message := mkMessage {
  message_id : Snowflake;
  channel_id : Snowflake;
  content : option string
}.

(** Python values, as far as the module handles them: the payload of
    [t.Any] fields, the unbound fallbacks, what a dictionary [.get]
    returns and what the resolver hands back. *)
#[local] Set Warnings "-register-all".
Inductive value :=
| PyNone
| PyBool (b : bool)
| PyInt (z : Z)
| PyFloat (f : spec_float)
| PyStr (s : string)
| PySeq (items : list value)
| PyUser (u : User)
| PyMember (m : InteractionMember)
| PyMessage (m : Message).

(** [type(v)] for the entity objects; [None] for the builtins. *)
Definition class_of (v : value) : option pyclass :=
  match v with
  | PyUser _ => Some hikari_User
  | PyMember _ => Some hikari_InteractionMember
  | PyMessage _ => Some hikari_Message
  | _ => None
  end.

(** [isinstance(v, cls)] for an entity class [cls]. *)
Definition isinstance (v : value) (cls : pyclass) : bool :=
  match class_of v with
  | Some c => issubclass c cls
  | None => false
  end.

(** Truth value of an object, as [or] tests it: [None], [False], zero
    and empty containers are false; the entity classes define neither
    [__bool__] nor [__len__], so their instances are true. *)
Definition truthy (v : value) : bool :=
  match v with
  | PyNone => false
  | PyBool b => b
  | PyInt z => negb (z =? 0)
  | PyFloat (S754_zero _) => false
  | PyFloat _ => true
  | PyStr s => negb (String.eqb s "")
  | PySeq items => match items with [] => false | _ => true end
  | PyUser _ | PyMember _ | PyMessage _ => true
  end.

(** [a or b]. *)
Definition py_or (a b : value) : value := if truthy a then a else b.

(** [hikari.UndefinedOr[T]]: the singleton [hikari.UNDEFINED] or a value.
    [Defined PyNone] is an explicit [None], distinct from [UNDEFINED]. *)
Inductive UndefinedOr (T : Type) :=
| UNDEFINED
| Defined (x : T).
Arguments UNDEFINED {T}.
Arguments Defined {T} x.

(** [item is not hikari.UNDEFINED]. *)
Definition is_not_UNDEFINED {T} (item : UndefinedOr T) : bool :=
  match item with
  | UNDEFINED => false
  | Defined _ => true
  end.

(** [hikari.CommandOption], restricted to the fields the module sets.
    Optional fields hold [PyNone] when absent. *)
Record CommandOption := mkCommandOption {
  co_type : OptionType;
  co_name : string;
  co_description : string;
  co_is_required : bool;
  co_choices : value;
  co_channel_types : value;
  co_min_value : value;
  co_max_value : value;
  co_min_length : value;
  co_max_length : value;
  co_autocomplete : bool
}.

(** ** OptionData *)

Definition _non_undefined_or {T} (item : UndefinedOr T) (default : T) : T :=
  match item with
  | UNDEFINED => default
  | Defined x => x
  end.

Record OptionData := mkOptionData {
  type : OptionType;
  name : string;
  description : string;
  default : UndefinedOr value;
  choices : UndefinedOr value;
  channel_types : UndefinedOr value;
  min_value : UndefinedOr value;
  max_value : UndefinedOr value;
  min_length : UndefinedOr value;
  max_length : UndefinedOr value;
  autocomplete : UndefinedOr value;
  localizations : UndefinedOr value
}.

(** The attrs-generated keyword-only constructor, with the defaults of
    the class body: every field after [description] is [UNDEFINED]. *)
Definition OptionData_init (type : OptionType) (name description : string)
    : OptionData :=
  {| type := type; name := name; description := description;
     default := UNDEFINED; choices := UNDEFINED; channel_types := UNDEFINED;
     min_value := UNDEFINED; max_value := UNDEFINED;
     min_length := UNDEFINED; max_length := UNDEFINED;
     autocomplete := UNDEFINED; localizations := UNDEFINED |}.

Definition to_command_option (self : OptionData) : CommandOption :=
  {| co_type := type self;
     co_name := name self;
     co_description := description self;
     co_is_required := is_not_UNDEFINED (default self);
     co_choices := _non_undefined_or (choices self) PyNone;
     co_channel_types := _non_undefined_or (channel_types self) PyNone;
     co_min_value := _non_undefined_or (min_value self) PyNone;
     co_max_value := _non_undefined_or (max_value self) PyNone;
     co_min_length := _non_undefined_or (min_length self) PyNone;
     co_max_length := _non_undefined_or (max_length self) PyNone;
     co_autocomplete := is_not_UNDEFINED (autocomplete self) |}.

(** ** Descriptors *)

(** [Option]: the schema record and the value handed out while no
    invocation is bound. *)
Record Option := mkOption {
  _data : OptionData;
  _unbound_default : value
}.

Definition Option_init (data : OptionData) (default_when_not_bound : value)
    : Option :=
  {| _data := data; _unbound_default := default_when_not_bound |}.

(** [ContextMenuOption(Option)]: the inherited slots and [_type]. *)
Record ContextMenuOption := mkContextMenuOption {
  as_Option : Option;
  _type : pyclass
}.

(** [hikari.ResolvedOptionData]: the tables of pre-resolved entities. *)
Record ResolvedOptionData := mkResolved {
  members : gmap Z InteractionMember;
  users : gmap Z User;
  messages : gmap Z Message
}.

(** [hikari.CommandInteraction], as far as a descriptor reads it. *)
Record CommandInteraction := mkInteraction {
  interaction_id : Snowflake;
  resolved : option ResolvedOptionData;
  target_id : option Snowflake
}.

(** The invocation context bound to a command instance. *)
Record Context := mkContext {
  interaction : CommandInteraction
}.

(** [mapping.get(key)]: the entry, or [None]. *)
Definition dict_get {V} (inject : V -> value) (mapping : gmap Z V)
    (key : Snowflake) : value :=
  match mapping !! key with
  | Some v => inject v
  | None => PyNone
  end.

(** *** Effects of a read *)

Inductive exn :=
| AssertionError
| Exception (what : string).

Inductive outcome (A : Type) :=
| Returned (a : A)
| Raised (e : exn).
Arguments Returned {A} a.
Arguments Raised {A} e.

(** A computation over the state [St] the client's resolver works on. *)
Definition M (St A : Type) : Type := St -> outcome A * St.

Definition ret {St A} (a : A) : M St A := fun s => (Returned a, s).

Definition raise {St A} (e : exn) : M St A := fun s => (Raised e, s).

Definition bind {St A B} (m : M St A) (k : A -> M St B) : M St B :=
  fun s =>
    match m s with
    | (Returned a, s') => k a s'
    | (Raised e, s') => (Raised e, s')
    end.

Declare Scope py_scope.
Delimit Scope py_scope with py.
Notation "x <- m ;; k" := (bind m (fun x => k))
  (at level 100, m at next level, right associativity) : py_scope.
Notation "m ;;; k" := (bind m (fun _ => k))
  (at level 100, right associativity) : py_scope.

(** [assert cond], with assertions enabled. *)
Definition assert {St} (cond : bool) : M St unit :=
  if cond then ret tt else raise AssertionError.

Section Binding.

(** What the framework object behind [instance._] keeps. *)
Variable St : Type.

(** [lightbulb.utils.EMPTY_USER] and [lightbulb.utils.EMPTY_MESSAGE]:
    the module only passes them on, so they are left open here. *)
Variable EMPTY_USER : User.
Variable EMPTY_MESSAGE : Message.

(** The framework object: its value resolver. *)
Record Client := mkClient {
  resolve_option : Context -> Option -> M St value
}.

(** [commands.CommandBase], as a descriptor sees it: [_current_context]
    and the attribute [_] holding the client. *)
Record CommandBase := mkCommandBase {
  _current_context : option Context;
  _client : Client
}.

Definition Option__get__ (self : Option) (instance : option CommandBase)
    (owner : pyclass) : M St value :=
  match instance with
  | None => ret (_unbound_default self)
  | Some instance =>
      match _current_context instance with
      | None => ret (_unbound_default self)
      | Some ctx => resolve_option (_client instance) ctx self
      end
  end.

Definition ContextMenuOption_init (type : pyclass) : ContextMenuOption :=
  {| _type := type;
     as_Option :=
       Option_init
         (OptionData_init STRING "target" "target")
         (if pyclass_is type hikari_User
          then PyUser EMPTY_USER else PyMessage EMPTY_MESSAGE) |}.

Definition ContextMenuOption__get__ (self : ContextMenuOption)
    (instance : option CommandBase) (owner : pyclass) : M St value :=
  match instance with
  | None => ret (_unbound_default (as_Option self))
  | Some instance =>
      match _current_context instance with
      | None => ret (_unbound_default (as_Option self))
      | Some ctx =>
          let interaction := interaction ctx in
          match resolved interaction with
          | None => raise AssertionError
          | Some resolved =>
              match target_id interaction with
              | None => raise AssertionError
              | Some target =>
                  if pyclass_is (_type self) hikari_User then
                    let user :=
                      py_or (dict_get PyMember (members resolved) target)
                            (dict_get PyUser (users resolved) target) in
                    (assert (isinstance user hikari_User) ;;;
                     ret user)%py
                  else
                    let message :=
                      dict_get PyMessage (messages resolved) target in
                    (assert (isinstance message hikari_Message) ;;;
                     ret message)%py
              end
          end
      end
  end.

End Binding.

Arguments resolve_option {St} _ _ _.
Arguments _current_context {St} _.
Arguments _client {St} _.
Arguments mkClient {St} _.
Arguments mkCommandBase {St} _ _.
Arguments Option__get__ {St} self instance owner.
Arguments ContextMenuOption__get__ {St} self instance owner.

(** ** Typed constructors

    Keyword arguments left out at a call site are [UNDEFINED]; [t.cast]
    is the identity at run time, so each returns the descriptor.
    [string] is written [string_], the name being taken by the type. *)

Definition string_ (name description : string)
    (default choices min_length max_length autocomplete : UndefinedOr value)
    : Option :=
  Option_init
    {| type := STRING; name := name; description := description;
       default := default; choices := choices; channel_types := UNDEFINED;
       min_value := UNDEFINED; max_value := UNDEFINED;
       min_length := min_length; max_length := max_length;
       autocomplete := autocomplete; localizations := UNDEFINED |}
    (PyStr "").

Definition integer (name description : string)
    (default choices min_value max_value autocomplete : UndefinedOr value)
    : Option :=
  Option_init
    {| type := INTEGER; name := name; description := description;
       default := default; choices := choices; channel_types := UNDEFINED;
       min_value := min_value; max_value := max_value;
       min_length := UNDEFINED; max_length := UNDEFINED;
       autocomplete := autocomplete; localizations := UNDEFINED |}
    (PyInt 0).

Definition boolean (name description : string) (default : UndefinedOr value)
    : Option :=
  Option_init
    {| type := BOOLEAN; name := name; description := description;
       default := default; choices := UNDEFINED; channel_types := UNDEFINED;
       min_value := UNDEFINED; max_value := UNDEFINED;
       min_length := UNDEFINED; max_length := UNDEFINED;
       autocomplete := UNDEFINED; localizations := UNDEFINED |}
    (PyBool false).

Definition number (name description : string)
    (default choices min_value max_value autocomplete : UndefinedOr value)
    : Option :=
  Option_init
    {| type := FLOAT; name := name; description := description;
       default := default; choices := choices; channel_types := UNDEFINED;
       min_value := min_value; max_value := max_value;
       min_length := UNDEFINED; max_length := UNDEFINED;
       autocomplete := autocomplete; localizations := UNDEFINED |}
    (PyFloat (S754_zero false)).

(** The call [self.to_command_option()] with the receiver as the state:
    the body reads fields of [self], assigns to none and raises nothing,
    and hands back the [hikari.CommandOption] it builds. *)
Definition to_command_option_call : M OptionData CommandOption :=
  fun self => (Returned (to_command_option self), self).

(** A client whose resolver answers from a table and appends every call
    to a log, for counting calls. *)
Definition recording_client (answer : Context -> Option -> outcome value)
    : Client (list (Context * Option)) :=
  mkClient (fun ctx opt log => (answer ctx opt, (log ++ [(ctx, opt)])%list)).

(** ** Sample data *)

Definition alice : User := mkUser 1001 "alice" false.
Definition bob : User := mkUser 1002 "bob" false.

Definition alice_in_guild : InteractionMember :=
  mkInteractionMember alice 7 (Some "Al").

Definition greeting : Message := mkMessage 2001 55 (Some "hello").

Definition empty_user : User := mkUser 0 "" false.
Definition empty_message : Message := mkMessage 0 0 None.

(** The target is known both as a guild member and as a plain user. *)
Definition resolved_member_and_user : ResolvedOptionData :=
  {| members := {[ 1001 := alice_in_guild ]};
     users := {[ 1001 := bob ]};
     messages := ∅ |}.

(** The target is known only as a plain user. *)
Definition resolved_user_only : ResolvedOptionData :=
  {| members := ∅; users := {[ 1002 := bob ]}; messages := ∅ |}.

Definition resolved_message : ResolvedOptionData :=
  {| members := ∅; users := ∅; messages := {[ 2001 := greeting ]} |}.

Definition resolved_nothing : ResolvedOptionData :=
  {| members := ∅; users := ∅; messages := ∅ |}.

Definition invocation (res : ResolvedOptionData) (target : Snowflake)
    : Context :=
  {| interaction :=
       {| interaction_id := 9000; resolved := Some res;
          target_id := Some target |} |}.

Definition silent_client : Client (list (Context * Option)) :=
  recording_client (fun _ _ => Returned PyNone).

(** The declaration [integer("age", "desc", min_value=0, max_value=120)]. *)
Definition age_option : Option :=
  integer "age" "desc" UNDEFINED UNDEFINED
    (Defined (PyInt 0)) (Defined (PyInt 120)) UNDEFINED.

(** The target is known only as a guild member. *)
Definition resolved_member_only : ResolvedOptionData :=
  {| members := {[ 1001 := alice_in_guild ]}; users := ∅; messages := ∅ |}.

(** As [resolved_member_and_user] under 1001, with further entries. *)
Definition resolved_crowded : ResolvedOptionData :=
  {| members := {[ 1001 := alice_in_guild;
                   1002 := mkInteractionMember bob 7 None ]};
     users := {[ 1001 := bob; 1002 := bob ]};
     messages := {[ 2001 := greeting ]} |}.

(** An interaction that carries no resolved data. *)
Definition invocation_without_resolved (target : Snowflake) : Context :=
  {| interaction :=
       {| interaction_id := 9001; resolved := None;
          target_id := Some target |} |}.

(** A keyword argument given as an explicit [None], or left out. *)
Definition explicit_None (given : bool) : UndefinedOr value :=
  if given then Defined PyNone else UNDEFINED.

(** The record behind
    [string("tag", "a tag", default="general", autocomplete=False)]. *)
Definition tag_data : OptionData :=
  _data (string_ "tag" "a tag" (Defined (PyStr "general")) UNDEFINED
           UNDEFINED UNDEFINED (Defined (PyBool false))).

(** ** Schema materialisation *)

Lemma is_not_UNDEFINED_true {T} (item : UndefinedOr T) :
  is_not_UNDEFINED item = true <-> item <> UNDEFINED.
Proof.
  destruct item as [|x]; simpl; split; intro H; congruence.
Qed.

Lemma _non_undefined_or_cases {T} (item : UndefinedOr T) (d : T) :
  _non_undefined_or item d =
  match item with UNDEFINED => d | Defined x => x end.
Proof. reflexivity. Qed.

Lemma to_command_option_is_required (d : OptionData) :
  co_is_required (to_command_option d) = is_not_UNDEFINED (default d).
Proof. reflexivity. Qed.

(** C1: the code computes [is_required] as [default is not UNDEFINED],
    the opposite of the claim: an option whose default is unset
    materialises with [is_required = false], and one whose default is set,
    be it to an explicit [None], with [is_required = true]. *)
Theorem to_command_option_is_required_inverted :
  (forall d : OptionData,
      co_is_required (to_command_option d) = is_not_UNDEFINED (default d)) /\
  co_is_required (to_command_option (OptionData_init STRING "name" "text"))
  = false /\
  co_is_required
    (to_command_option
       (_data (string_ "name" "text" (Defined PyNone) UNDEFINED UNDEFINED
                 UNDEFINED UNDEFINED)))
  = true.
Proof. repeat split. Qed.

(** C2: materialising [integer("age", "desc", min_value=0, max_value=120)]
    gives kind INTEGER, name "age", both bounds, and [None] for choices
    and channel kinds, as claimed, but [is_required] comes out [false]
    where the claim has [true]. *)
Theorem integer_age_schema :
  to_command_option (_data age_option) =
  {| co_type := INTEGER; co_name := "age"; co_description := "desc";
     co_is_required := false;
     co_choices := PyNone; co_channel_types := PyNone;
     co_min_value := PyInt 0; co_max_value := PyInt 120;
     co_min_length := PyNone; co_max_length := PyNone;
     co_autocomplete := false |}.
Proof. reflexivity. Qed.

(** C7: the schema's [autocomplete] is a boolean, true exactly when the
    stored field is not [UNDEFINED]; two records that differ only in the
    value of a present autocomplete configuration materialise alike. *)
Theorem to_command_option_autocomplete :
  (forall d : OptionData,
      co_autocomplete (to_command_option d)
      = match autocomplete d with UNDEFINED => false | Defined _ => true end)
  /\
  (forall ty nm descr dflt ch cts mn mx mnl mxl loc (v w : value),
      to_command_option
        (mkOptionData ty nm descr dflt ch cts mn mx mnl mxl (Defined v) loc)
      = to_command_option
          (mkOptionData ty nm descr dflt ch cts mn mx mnl mxl (Defined w) loc)).
Proof.
  split.
  - intros d. unfold to_command_option. simpl. now destruct (autocomplete d).
  - reflexivity.
Qed.

(** The stored values of [default] and [autocomplete] do not reach the
    fragment: with [autocomplete=False] stored the fragment has
    [autocomplete = True], and the stored default "general" appears in
    none of its fields. *)
Lemma to_command_option_not_stored_values :
  default tag_data = Defined (PyStr "general") /\
  autocomplete tag_data = Defined (PyBool false) /\
  to_command_option tag_data =
  {| co_type := STRING; co_name := "tag"; co_description := "a tag";
     co_is_required := true;
     co_choices := PyNone; co_channel_types := PyNone;
     co_min_value := PyNone; co_max_value := PyNone;
     co_min_length := PyNone; co_max_length := PyNone;
     co_autocomplete := true |}.
Proof. repeat split. Qed.

(** C8, amended: a call of [to_command_option] returns a fragment, never
    raises and leaves the record as it was, so a second call on the same
    record returns an equal fragment.  The three plain fields are copied;
    each of [choices], [channel_types], [min_value], [max_value],
    [min_length] and [max_length] comes out as [None] when unset and as
    the stored value when present; [autocomplete] comes out as the
    boolean saying whether the stored field is set; and [is_required]
    depends on [default] only through whether it is set: two records get
    the same [is_required] exactly when their defaults are both set or
    both unset. *)
Theorem to_command_option_call_pure :
  forall d d' : OptionData,
    let fragment := to_command_option d in
    to_command_option_call d = (Returned fragment, d) /\
    (first <- to_command_option_call ;;
     second <- to_command_option_call ;;
     ret (first, second))%py d
    = (Returned (fragment, fragment), d) /\
    co_type fragment = type d /\
    co_name fragment = name d /\
    co_description fragment = description d /\
    co_choices fragment
    = match choices d with UNDEFINED => PyNone | Defined v => v end /\
    co_channel_types fragment
    = match channel_types d with UNDEFINED => PyNone | Defined v => v end /\
    co_min_value fragment
    = match min_value d with UNDEFINED => PyNone | Defined v => v end /\
    co_max_value fragment
    = match max_value d with UNDEFINED => PyNone | Defined v => v end /\
    co_min_length fragment
    = match min_length d with UNDEFINED => PyNone | Defined v => v end /\
    co_max_length fragment
    = match max_length d with UNDEFINED => PyNone | Defined v => v end /\
    co_autocomplete fragment
    = match autocomplete d with UNDEFINED => false | Defined _ => true end /\
    Bool.eqb (co_is_required fragment)
             (co_is_required (to_command_option d'))
    = Bool.eqb (is_not_UNDEFINED (default d))
               (is_not_UNDEFINED (default d')).
Proof.
  intros d d' fragment. subst fragment.
  unfold to_command_option_call, bind, ret, to_command_option; simpl.
  rewrite !_non_undefined_or_cases.
  repeat split.
Qed.

(** ** Reading a descriptor *)

Lemma pyclass_is_User (c : pyclass) :
  pyclass_is c hikari_User = true <-> c = hikari_User.
Proof. destruct c; simpl; split; congruence. Qed.

Lemma dict_get_Some {V} (inject : V -> value) (m : gmap Z V) k v :
  m !! k = Some v -> dict_get inject m k = inject v.
Proof. intros H. unfold dict_get. now rewrite H. Qed.

Lemma dict_get_None {V} (inject : V -> value) (m : gmap Z V) k :
  m !! k = None -> dict_get inject m k = PyNone.
Proof. intros H. unfold dict_get. now rewrite H. Qed.

Section Reads.

Context {St : Type}.
Variables (EMPTY_USER : User) (EMPTY_MESSAGE : Message).

#[local] Abbreviation menu :=
  (ContextMenuOption_init EMPTY_USER EMPTY_MESSAGE).

(** A bound read of a context-menu descriptor, once the two leading
    assertions hold, is decided by [_type] and the tables. *)
Lemma ContextMenuOption_get_bound client ctx res target ty owner (s : St) :
  resolved (interaction ctx) = Some res ->
  target_id (interaction ctx) = Some target ->
  ContextMenuOption__get__ (menu ty)
    (Some (mkCommandBase (Some ctx) client)) owner s
  = if pyclass_is ty hikari_User then
      (let user := py_or (dict_get PyMember (members res) target)
                         (dict_get PyUser (users res) target) in
       assert (isinstance user hikari_User) ;;; ret user)%py s
    else
      (let message := dict_get PyMessage (messages res) target in
       assert (isinstance message hikari_Message) ;;; ret message)%py s.
Proof.
  intros Hres Htarget. unfold ContextMenuOption__get__; simpl.
  rewrite Hres, Htarget. now destruct (pyclass_is ty hikari_User).
Qed.

(** C3: a User descriptor read through a bound instance returns the
    member entry of the target whenever there is one, whatever the users
    table holds for it, and the users entry when only that table knows
    the target. *)
Theorem ContextMenuOption_get_user client ctx res target owner (s : St) :
  resolved (interaction ctx) = Some res ->
  target_id (interaction ctx) = Some target ->
  let read :=
    ContextMenuOption__get__ (menu hikari_User)
      (Some (mkCommandBase (Some ctx) client)) owner s in
  (forall (M : InteractionMember) (U : option User),
      members res !! target = Some M ->
      users res !! target = U ->
      read = (Returned (PyMember M), s)) /\
  (forall U : User,
      members res !! target = None ->
      users res !! target = Some U ->
      read = (Returned (PyUser U), s)).
Proof.
  intros Hres Htarget read. subst read.
  rewrite (ContextMenuOption_get_bound _ _ _ _ _ _ _ Hres Htarget); simpl.
  split.
  - intros M U HM _. now rewrite (dict_get_Some _ _ _ _ HM).
  - intros U HM HU.
    now rewrite (dict_get_None _ _ _ HM), (dict_get_Some _ _ _ _ HU).
Qed.

(** C4: a Message descriptor read through a bound instance returns the
    messages entry of the target when there is one; when there is none
    the read raises [AssertionError], so it returns nothing, the
    empty-message fallback included. *)
Theorem ContextMenuOption_get_message client ctx res target owner (s : St) :
  resolved (interaction ctx) = Some res ->
  target_id (interaction ctx) = Some target ->
  let read :=
    ContextMenuOption__get__ (menu hikari_Message)
      (Some (mkCommandBase (Some ctx) client)) owner s in
  (forall X : Message,
      messages res !! target = Some X ->
      read = (Returned (PyMessage X), s)) /\
  (messages res !! target = None ->
      read = (Raised AssertionError, s) /\
      forall v, read <> (Returned v, s)).
Proof.
  intros Hres Htarget read. subst read.
  rewrite (ContextMenuOption_get_bound _ _ _ _ _ _ _ Hres Htarget); simpl.
  split.
  - intros X HX. now rewrite (dict_get_Some _ _ _ _ HX).
  - intros HX. rewrite (dict_get_None _ _ _ HX). simpl.
    split; [reflexivity | intros v; discriminate].
Qed.

(** C9: whatever the declared target type, the descriptor wraps the same
    record: kind STRING, name and description "target", everything else
    unset; so User and Message descriptors materialise alike. *)
Theorem ContextMenuOption_data :
  (forall ty : pyclass,
      _data (as_Option (menu ty)) =
      {| type := STRING; name := "target"; description := "target";
         default := UNDEFINED; choices := UNDEFINED;
         channel_types := UNDEFINED;
         min_value := UNDEFINED; max_value := UNDEFINED;
         min_length := UNDEFINED; max_length := UNDEFINED;
         autocomplete := UNDEFINED; localizations := UNDEFINED |}) /\
  _data (as_Option (menu hikari_User))
  = _data (as_Option (menu hikari_Message)) /\
  to_command_option (_data (as_Option (menu hikari_User)))
  = to_command_option (_data (as_Option (menu hikari_Message))).
Proof. repeat split. Qed.

(** C10: the unbound fallback is the empty user exactly when the
    declared type is [hikari.User] itself, and the empty message for
    every other type, the subclasses of [hikari.User] among them. *)
Theorem ContextMenuOption_unbound_default :
  forall ty : pyclass,
    let fallback := _unbound_default (as_Option (menu ty)) in
    (fallback = PyUser EMPTY_USER <-> ty = hikari_User) /\
    (fallback = PyMessage EMPTY_MESSAGE <-> ty <> hikari_User) /\
    (issubclass hikari_Member hikari_User = true /\
     _unbound_default (as_Option (menu hikari_Member))
     = PyMessage EMPTY_MESSAGE) /\
    (issubclass hikari_InteractionMember hikari_User = true /\
     _unbound_default (as_Option (menu hikari_InteractionMember))
     = PyMessage EMPTY_MESSAGE).
Proof.
  intros ty fallback. subst fallback. simpl.
  pose proof (pyclass_is_User ty) as [Hto Hfrom].
  destruct (pyclass_is ty hikari_User) eqn:E.
  - specialize (Hto eq_refl). subst ty.
    repeat split; try congruence; intros H; now elim H.
  - assert (ty <> hikari_User) as Hne
      by (intros ->; specialize (Hfrom eq_refl); discriminate).
    repeat split; congruence.
Qed.

End Reads.

(** C5: read through an instance with a bound context, a descriptor
    behaves as one call of the client's resolver on that context and that
    descriptor: same outcome, a raised exception included, and same
    final state.  With a recording client the log grows by exactly the
    entry for this context and this descriptor. *)
Theorem Option_get_bound :
  (forall (St : Type) (client : Client St) (ctx : Context) (self : Option)
      (owner : pyclass) (s : St),
      Option__get__ self (Some (mkCommandBase (Some ctx) client)) owner s
      = resolve_option client ctx self s) /\
  (forall (answer : Context -> Option -> outcome value) (ctx : Context)
      (self : Option) (owner : pyclass) (log : list (Context * Option)),
      Option__get__ self
        (Some (mkCommandBase (Some ctx) (recording_client answer))) owner log
      = (answer ctx self, (log ++ [(ctx, self)])%list)).
Proof. split; reflexivity. Qed.

(** C6: read through the class, or through an instance without a current
    context, a descriptor returns its unbound fallback and leaves the
    client alone (no resolver call, no exception); the same holds for
    context-menu descriptors.  The fallbacks of [string], [integer],
    [boolean] and [number] given only a name and a description are
    the empty string, 0, False and 0.0. *)
Theorem Option_get_unbound :
  (forall (St : Type) (self : Option) (owner : pyclass) (s : St),
      Option__get__ self None owner s = (Returned (_unbound_default self), s))
  /\
  (forall (St : Type) (client : Client St) (self : Option) (owner : pyclass)
      (s : St),
      Option__get__ self (Some (mkCommandBase None client)) owner s
      = (Returned (_unbound_default self), s)) /\
  (forall (answer : Context -> Option -> outcome value) (self : Option)
      (owner : pyclass) (log : list (Context * Option)),
      snd (Option__get__ self
             (Some (mkCommandBase None (recording_client answer))) owner log)
      = log) /\
  (forall (St : Type) (self : ContextMenuOption) (owner : pyclass) (s : St),
      ContextMenuOption__get__ self None owner s
      = (Returned (_unbound_default (as_Option self)), s)) /\
  (forall (St : Type) (client : Client St) (self : ContextMenuOption)
      (owner : pyclass) (s : St),
      ContextMenuOption__get__ self (Some (mkCommandBase None client)) owner s
      = (Returned (_unbound_default (as_Option self)), s)) /\
  (forall nm descr : string,
      _unbound_default
        (string_ nm descr UNDEFINED UNDEFINED UNDEFINED UNDEFINED UNDEFINED)
      = PyStr "" /\
      _unbound_default
        (integer nm descr UNDEFINED UNDEFINED UNDEFINED UNDEFINED UNDEFINED)
      = PyInt 0 /\
      _unbound_default (boolean nm descr UNDEFINED) = PyBool false /\
      _unbound_default
        (number nm descr UNDEFINED UNDEFINED UNDEFINED UNDEFINED UNDEFINED)
      = PyFloat (S754_zero false)).
Proof. repeat split. Qed.

(** ** The statements at sample invocations *)

Lemma ContextMenuOption_get_user_sample :
  ContextMenuOption__get__
    (ContextMenuOption_init empty_user empty_message hikari_User)
    (Some (mkCommandBase (Some (invocation resolved_member_and_user 1001))
             silent_client))
    (other_class "WhoIs") []
  = (Returned (PyMember alice_in_guild), []) /\
  ContextMenuOption__get__
    (ContextMenuOption_init empty_user empty_message hikari_User)
    (Some (mkCommandBase (Some (invocation resolved_user_only 1002))
             silent_client))
    (other_class "WhoIs") []
  = (Returned (PyUser bob), []).
Proof.
  split.
  - apply (proj1 (ContextMenuOption_get_user empty_user empty_message
                    silent_client (invocation resolved_member_and_user 1001)
                    resolved_member_and_user 1001 (other_class "WhoIs") []
                    eq_refl eq_refl) alice_in_guild (Some bob));
      reflexivity.
  - apply (proj2 (ContextMenuOption_get_user empty_user empty_message
                    silent_client (invocation resolved_user_only 1002)
                    resolved_user_only 1002 (other_class "WhoIs") []
                    eq_refl eq_refl) bob);
      reflexivity.
Defined.

Lemma ContextMenuOption_get_message_sample :
  ContextMenuOption__get__
    (ContextMenuOption_init empty_user empty_message hikari_Message)
    (Some (mkCommandBase (Some (invocation resolved_message 2001))
             silent_client))
    (other_class "Quote") []
  = (Returned (PyMessage greeting), []) /\
  ContextMenuOption__get__
    (ContextMenuOption_init empty_user empty_message hikari_Message)
    (Some (mkCommandBase (Some (invocation resolved_nothing 2001))
             silent_client))
    (other_class "Quote") []
  = (Raised AssertionError, []).
Proof.
  split.
  - apply (proj1 (ContextMenuOption_get_message empty_user empty_message
                    silent_client (invocation resolved_message 2001)
                    resolved_message 2001 (other_class "Quote") []
                    eq_refl eq_refl) greeting);
      reflexivity.
  - apply (proj2 (ContextMenuOption_get_message empty_user empty_message
                    silent_client (invocation resolved_nothing 2001)
                    resolved_nothing 2001 (other_class "Quote") []
                    eq_refl eq_refl));
      reflexivity.
Defined.

(** ** Further properties of schema materialisation *)

(** X9: whatever arguments a typed constructor receives, the kind of the
    materialised fragment is fixed by the constructor, no fragment carries
    channel kinds, [string] never carries numeric bounds, [integer] and
    [number] never carry length bounds, and [boolean] carries no
    constraint at all and never enables autocomplete. *)
Theorem typed_constructors_schema :
  forall (nm descr : string) (dflt ch lo hi ac : UndefinedOr value),
    let s := to_command_option (_data (string_ nm descr dflt ch lo hi ac)) in
    let i := to_command_option (_data (integer nm descr dflt ch lo hi ac)) in
    let b := to_command_option (_data (boolean nm descr dflt)) in
    let n := to_command_option (_data (number nm descr dflt ch lo hi ac)) in
    (co_type s, co_type i, co_type b, co_type n)
    = (STRING, INTEGER, BOOLEAN, FLOAT) /\
    (co_channel_types s, co_channel_types i, co_channel_types b,
     co_channel_types n) = (PyNone, PyNone, PyNone, PyNone) /\
    (co_min_value s, co_max_value s) = (PyNone, PyNone) /\
    (co_min_length s, co_max_length s)
    = (_non_undefined_or lo PyNone, _non_undefined_or hi PyNone) /\
    (co_min_length i, co_max_length i) = (PyNone, PyNone) /\
    (co_min_value i, co_max_value i)
    = (_non_undefined_or lo PyNone, _non_undefined_or hi PyNone) /\
    (co_min_length n, co_max_length n) = (PyNone, PyNone) /\
    (co_min_value n, co_max_value n)
    = (_non_undefined_or lo PyNone, _non_undefined_or hi PyNone) /\
    (co_choices b, co_min_value b, co_max_value b, co_min_length b,
     co_max_length b) = (PyNone, PyNone, PyNone, PyNone, PyNone) /\
    co_autocomplete b = false.
Proof. intros. repeat split. Qed.

(** X10: in the six constraint fields an explicit [None] and a field left
    unset materialise to the same fragment, whereas in [default] and in
    [autocomplete] an explicit [None] counts as set and flips the
    fragment's boolean. *)
Theorem to_command_option_explicit_None :
  forall ty nm descr dflt ac loc (c1 c2 c3 c4 c5 c6 : bool),
    to_command_option
      (mkOptionData ty nm descr dflt (explicit_None c1) (explicit_None c2)
         (explicit_None c3) (explicit_None c4) (explicit_None c5)
         (explicit_None c6) ac loc)
    = to_command_option
        (mkOptionData ty nm descr dflt UNDEFINED UNDEFINED UNDEFINED
           UNDEFINED UNDEFINED UNDEFINED ac loc) /\
    co_is_required
      (to_command_option
         (mkOptionData ty nm descr (explicit_None true) UNDEFINED UNDEFINED
            UNDEFINED UNDEFINED UNDEFINED UNDEFINED ac loc))
    = negb
        (co_is_required
           (to_command_option
              (mkOptionData ty nm descr (explicit_None false) UNDEFINED
                 UNDEFINED UNDEFINED UNDEFINED UNDEFINED UNDEFINED ac loc)))
    /\
    co_autocomplete
      (to_command_option
         (mkOptionData ty nm descr dflt UNDEFINED UNDEFINED UNDEFINED
            UNDEFINED UNDEFINED UNDEFINED (explicit_None true) loc))
    = negb
        (co_autocomplete
           (to_command_option
              (mkOptionData ty nm descr dflt UNDEFINED UNDEFINED UNDEFINED
                 UNDEFINED UNDEFINED UNDEFINED (explicit_None false) loc))).
Proof.
  intros. repeat split.
  unfold to_command_option; simpl.
  now destruct c1, c2, c3, c4, c5, c6.
Qed.

(** X11: the fragment ignores [localizations] altogether and keeps of a
    present [default] only the fact that it is present: records that
    differ in nothing else materialise alike. *)
Theorem to_command_option_forgets :
  forall ty nm descr ch cts lo hi llo lhi ac (loc loc' : UndefinedOr value)
      (v w : value),
    to_command_option
      (mkOptionData ty nm descr (Defined v) ch cts lo hi llo lhi ac loc)
    = to_command_option
        (mkOptionData ty nm descr (Defined w) ch cts lo hi llo lhi ac loc')
    /\
    to_command_option
      (mkOptionData ty nm descr UNDEFINED ch cts lo hi llo lhi ac loc)
    = to_command_option
        (mkOptionData ty nm descr UNDEFINED ch cts lo hi llo lhi ac loc').
Proof. intros. split; reflexivity. Qed.

(** ** Further properties of context-menu reads *)

Lemma pyclass_is_not_User (c : pyclass) :
  c <> hikari_User -> pyclass_is c hikari_User = false.
Proof.
  intros Hne. destruct (pyclass_is c hikari_User) eqn:E; [|reflexivity].
  now apply pyclass_is_User in E.
Qed.

Section MenuReads.

Context {St : Type}.
Variables (EMPTY_USER : User) (EMPTY_MESSAGE : Message).

#[local] Abbreviation menu' :=
  (ContextMenuOption_init EMPTY_USER EMPTY_MESSAGE).

(** X1: on a well-formed invocation a User read raises [AssertionError]
    exactly when the target is missing from both the members and the
    users table. *)
Theorem ContextMenuOption_get_user_fails_iff
    client ctx res target owner (s : St) :
  resolved (interaction ctx) = Some res ->
  target_id (interaction ctx) = Some target ->
  ContextMenuOption__get__ (menu' hikari_User)
    (Some (mkCommandBase (Some ctx) client)) owner s
  = (Raised AssertionError, s)
  <-> members res !! target = None /\ users res !! target = None.
Proof.
  intros Hres Htarget.
  rewrite (ContextMenuOption_get_bound _ _ _ _ _ _ _ _ _ Hres Htarget); simpl.
  unfold dict_get, py_or, bind.
  destruct (members res !! target) as [m|], (users res !! target) as [u|];
    simpl; split; (intros [? ?] || intros ?); try discriminate; auto.
Qed.

(** X2: whatever a User read through a bound instance returns was found
    in the invocation's tables under its target: the members entry, or the
    users entry when the members table has none; and the state is left
    as it was. *)
Theorem ContextMenuOption_get_user_returned
    client ctx owner (s s' : St) (v : value) :
  ContextMenuOption__get__ (menu' hikari_User)
    (Some (mkCommandBase (Some ctx) client)) owner s
  = (Returned v, s') ->
  s' = s /\
  exists res target,
    resolved (interaction ctx) = Some res /\
    target_id (interaction ctx) = Some target /\
    ((exists m, members res !! target = Some m /\ v = PyMember m) \/
     (members res !! target = None /\
      exists u, users res !! target = Some u /\ v = PyUser u)).
Proof.
  unfold ContextMenuOption__get__; simpl.
  destruct (resolved (interaction ctx)) as [res|]; [|discriminate].
  destruct (target_id (interaction ctx)) as [target|]; [|discriminate].
  unfold dict_get, py_or, bind.
  destruct (members res !! target) as [m|] eqn:Hm;
    [|destruct (users res !! target) as [u|] eqn:Hu];
    simpl; intros H; inversion H; subst; (split; [reflexivity|]);
    exists res, target; repeat split; eauto.
Qed.

(** X3: an invocation without resolved data, or without a target, makes
    every bound context-menu read raise [AssertionError], whatever the
    declared type. *)
Theorem ContextMenuOption_get_malformed client ctx ty owner (s : St) :
  resolved (interaction ctx) = None \/ target_id (interaction ctx) = None ->
  ContextMenuOption__get__ (menu' ty)
    (Some (mkCommandBase (Some ctx) client)) owner s
  = (Raised AssertionError, s).
Proof.
  unfold ContextMenuOption__get__; simpl.
  destruct (resolved (interaction ctx)), (target_id (interaction ctx));
    intros [H|H]; try discriminate; reflexivity.
Qed.

(** X4: a descriptor declared with any type other than [hikari.User]
    itself behaves, on every read, as the one declared with
    [hikari.Message]: the members and users tables are never looked at. *)
Theorem ContextMenuOption_not_User_as_Message ty instance owner (s : St) :
  ty <> hikari_User ->
  ContextMenuOption__get__ (menu' ty) instance owner s
  = ContextMenuOption__get__ (menu' hikari_Message) instance owner s.
Proof.
  intros Hne. unfold ContextMenuOption__get__, ContextMenuOption_init; simpl.
  now rewrite (pyclass_is_not_User _ Hne).
Qed.

(** X6: every value a context-menu read returns, bound or not, is an
    instance of [hikari.User] when the descriptor was declared with
    [hikari.User] and of [hikari.Message] otherwise; [None] is never
    returned, and the state is left as it was. *)
Theorem ContextMenuOption_get_returns_declared
    ty instance owner (s s' : St) (v : value) :
  ContextMenuOption__get__ (menu' ty) instance owner s = (Returned v, s') ->
  isinstance v (if pyclass_is ty hikari_User
                then hikari_User else hikari_Message) = true /\
  v <> PyNone /\ s' = s.
Proof.
  unfold ContextMenuOption__get__, ContextMenuOption_init; simpl.
  destruct instance as [[[ctx|] client]|]; simpl.
  - destruct (resolved (interaction ctx)) as [res|]; [|discriminate].
    destruct (target_id (interaction ctx)) as [target|]; [|discriminate].
    unfold dict_get, py_or, bind.
    destruct (pyclass_is ty hikari_User);
      destruct (members res !! target), (users res !! target),
        (messages res !! target);
      simpl; intros H; inversion H; subst; repeat split; discriminate.
  - destruct (pyclass_is ty hikari_User);
      intros H; inversion H; subst; repeat split; discriminate.
  - destruct (pyclass_is ty hikari_User);
      intros H; inversion H; subst; repeat split; discriminate.
Qed.

(** X7: a bound read depends on the tables only through the entries
    under the target.  Of two well-formed invocations with the same
    target, a User read is the same when the members and the users tables
    agree at the target, and a read for any other declared type is the
    same when the messages tables agree there; nothing else the tables
    hold, nor the client or the owner, matters. *)
Theorem ContextMenuOption_get_local
    client client' ctx ctx' res res' target owner owner' (s : St) :
  resolved (interaction ctx) = Some res ->
  resolved (interaction ctx') = Some res' ->
  target_id (interaction ctx) = Some target ->
  target_id (interaction ctx') = Some target ->
  (members res !! target = members res' !! target ->
   users res !! target = users res' !! target ->
   ContextMenuOption__get__ (menu' hikari_User)
     (Some (mkCommandBase (Some ctx) client)) owner s
   = ContextMenuOption__get__ (menu' hikari_User)
       (Some (mkCommandBase (Some ctx') client')) owner' s) /\
  (forall ty : pyclass,
      ty <> hikari_User ->
      messages res !! target = messages res' !! target ->
      ContextMenuOption__get__ (menu' ty)
        (Some (mkCommandBase (Some ctx) client)) owner s
      = ContextMenuOption__get__ (menu' ty)
          (Some (mkCommandBase (Some ctx') client')) owner' s).
Proof.
  intros Hres Hres' Ht Ht'. split.
  - intros Hm Hu.
    rewrite (ContextMenuOption_get_bound _ _ _ _ _ _ _ _ _ Hres Ht).
    rewrite (ContextMenuOption_get_bound _ _ _ _ _ _ _ _ _ Hres' Ht').
    simpl. unfold dict_get. now rewrite Hm, Hu.
  - intros ty Hne Hg.
    rewrite (ContextMenuOption_get_bound _ _ _ _ _ _ _ _ _ Hres Ht).
    rewrite (ContextMenuOption_get_bound _ _ _ _ _ _ _ _ _ Hres' Ht').
    rewrite (pyclass_is_not_User _ Hne). unfold dict_get. now rewrite Hg.
Qed.

End MenuReads.

(** X5: a context-menu read never goes through the client: the state is
    left as it was, a recording client's log stays as it is, and the
    outcome is the same for any two clients, over whatever state, and any
    two owners. *)
Theorem ContextMenuOption_get_bypasses_client :
  (forall (St : Type) (self : ContextMenuOption)
      (instance : option (CommandBase St)) (owner : pyclass) (s : St),
      snd (ContextMenuOption__get__ self instance owner s) = s) /\
  (forall (St St' : Type) (self : ContextMenuOption) (bound : option Context)
      (client : Client St) (client' : Client St') (owner owner' : pyclass)
      (s : St) (s' : St'),
      fst (ContextMenuOption__get__ self
             (Some (mkCommandBase bound client)) owner s)
      = fst (ContextMenuOption__get__ self
               (Some (mkCommandBase bound client')) owner' s')).
Proof.
  split.
  - intros St self [[[ctx|] client]|] owner s; simpl; try reflexivity.
    destruct (resolved (interaction ctx)) as [res|]; [|reflexivity].
    destruct (target_id (interaction ctx)) as [target|]; [|reflexivity].
    unfold bind, assert.
    destruct (pyclass_is (_type self) hikari_User);
      match goal with |- context [isinstance ?x ?c] =>
        destruct (isinstance x c) end; reflexivity.
  - intros St St' self [ctx|] client client' owner owner' s s'; simpl;
      try reflexivity.
    destruct (resolved (interaction ctx)) as [res|]; [|reflexivity].
    destruct (target_id (interaction ctx)) as [target|]; [|reflexivity].
    unfold bind, assert.
    destruct (pyclass_is (_type self) hikari_User);
      match goal with |- context [isinstance ?x ?c] =>
        destruct (isinstance x c) end; reflexivity.
Qed.

(** X8: two bound reads in a row, of the same descriptor or of two, make
    two resolver calls in that order, nothing being cached; when the
    first call raises, the exception ends the sequence and the second
    call is never made. *)
Theorem Option_get_twice :
  forall (answer : Context -> Option -> outcome value) (ctx : Context)
      (a b : Option) (owner : pyclass) (log : list (Context * Option)),
    let instance :=
      Some (mkCommandBase (Some ctx) (recording_client answer)) in
    (x <- Option__get__ a instance owner ;;
     y <- Option__get__ b instance owner ;;
     ret (x, y))%py log
    = match answer ctx a, answer ctx b with
      | Raised e, _ => (Raised e, (log ++ [(ctx, a)])%list)
      | Returned _, Raised e => (Raised e, (log ++ [(ctx, a); (ctx, b)])%list)
      | Returned x, Returned y =>
          (Returned (x, y), (log ++ [(ctx, a); (ctx, b)])%list)
      end.
Proof.
  intros answer ctx a b owner log instance. subst instance.
  unfold bind, ret; simpl.
  destruct (answer ctx a) as [x|e]; [|reflexivity].
  rewrite <- app_assoc; simpl.
  now destruct (answer ctx b).
Qed.

(** ** The further statements at sample invocations *)

Lemma ContextMenuOption_get_user_fails_iff_sample :
  ContextMenuOption__get__
    (ContextMenuOption_init empty_user empty_message hikari_User)
    (Some (mkCommandBase (Some (invocation resolved_message 2001))
             silent_client))
    (other_class "WhoIs") []
  = (Raised AssertionError, []).
Proof.
  apply (proj2 (ContextMenuOption_get_user_fails_iff empty_user empty_message
                  silent_client (invocation resolved_message 2001)
                  resolved_message 2001 (other_class "WhoIs") []
                  eq_refl eq_refl)).
  split; reflexivity.
Defined.

Lemma ContextMenuOption_get_user_returned_sample :
  ([] : list (Context * Option)) = [] /\
  exists res target,
    resolved (interaction (invocation resolved_member_and_user 1001))
    = Some res /\
    target_id (interaction (invocation resolved_member_and_user 1001))
    = Some target /\
    ((exists m, members res !! target = Some m /\
                PyMember alice_in_guild = PyMember m) \/
     (members res !! target = None /\
      exists u, users res !! target = Some u /\
                PyMember alice_in_guild = PyUser u)).
Proof.
  apply (ContextMenuOption_get_user_returned empty_user empty_message
           silent_client (invocation resolved_member_and_user 1001)
           (other_class "WhoIs") [] [] (PyMember alice_in_guild)).
  reflexivity.
Defined.

Lemma ContextMenuOption_get_malformed_sample :
  ContextMenuOption__get__
    (ContextMenuOption_init empty_user empty_message hikari_User)
    (Some (mkCommandBase (Some (invocation_without_resolved 1001))
             silent_client))
    (other_class "WhoIs") []
  = (Raised AssertionError, []).
Proof.
  apply (ContextMenuOption_get_malformed empty_user empty_message
           silent_client (invocation_without_resolved 1001) hikari_User
           (other_class "WhoIs") []).
  left. reflexivity.
Defined.

(** Declared with [hikari.Member], the descriptor does not find the
    member the invocation resolved. *)
Lemma ContextMenuOption_not_User_as_Message_sample :
  ContextMenuOption__get__
    (ContextMenuOption_init empty_user empty_message hikari_Member)
    (Some (mkCommandBase (Some (invocation resolved_member_only 1001))
             silent_client))
    (other_class "WhoIs") []
  = (Raised AssertionError, []).
Proof.
  rewrite (ContextMenuOption_not_User_as_Message empty_user empty_message
             hikari_Member
             (Some (mkCommandBase
                      (Some (invocation resolved_member_only 1001))
                      silent_client))
             (other_class "WhoIs") []).
  - reflexivity.
  - discriminate.
Defined.

Lemma ContextMenuOption_get_returns_declared_sample :
  isinstance (PyMessage greeting) hikari_Message = true /\
  PyMessage greeting <> PyNone /\
  ([] : list (Context * Option)) = [].
Proof.
  apply (ContextMenuOption_get_returns_declared empty_user empty_message
           hikari_Message
           (Some (mkCommandBase (Some (invocation resolved_message 2001))
                    silent_client))
           (other_class "Quote") [] [] (PyMessage greeting)).
  reflexivity.
Defined.

Lemma ContextMenuOption_get_local_sample :
  ContextMenuOption__get__
    (ContextMenuOption_init empty_user empty_message hikari_User)
    (Some (mkCommandBase (Some (invocation resolved_member_and_user 1001))
             silent_client))
    (other_class "WhoIs") []
  = ContextMenuOption__get__
      (ContextMenuOption_init empty_user empty_message hikari_User)
      (Some (mkCommandBase (Some (invocation resolved_crowded 1001))
               silent_client))
      (other_class "Quote") [] /\
  ContextMenuOption__get__
    (ContextMenuOption_init empty_user empty_message hikari_Message)
    (Some (mkCommandBase (Some (invocation resolved_message 2001))
             silent_client))
    (other_class "WhoIs") []
  = ContextMenuOption__get__
      (ContextMenuOption_init empty_user empty_message hikari_Message)
      (Some (mkCommandBase (Some (invocation resolved_crowded 2001))
               silent_client))
      (other_class "Quote") [].
Proof.
  split.
  - apply (proj1 (ContextMenuOption_get_local empty_user empty_message
                    silent_client silent_client
                    (invocation resolved_member_and_user 1001)
                    (invocation resolved_crowded 1001)
                    resolved_member_and_user resolved_crowded 1001
                    (other_class "WhoIs") (other_class "Quote") []
                    eq_refl eq_refl eq_refl eq_refl));
      reflexivity.
  - apply (proj2 (ContextMenuOption_get_local empty_user empty_message
                    silent_client silent_client
                    (invocation resolved_message 2001)
                    (invocation resolved_crowded 2001)
                    resolved_message resolved_crowded 2001
                    (other_class "WhoIs") (other_class "Quote") []
                    eq_refl eq_refl eq_refl eq_refl) hikari_Message);
      [discriminate | reflexivity].
Defined.
